(** * The Remix value store of koji-core (src/frontend/remix/index.ts)

    A shallow embedding of the [Remix] class: the customization value tree it
    owns, the merge with the host's overrides at initialization, the
    read/write accessors and the message exchanges with the host frame.

    The class runs in a browser frame: [window] exists, the constructor
    registers its readiness callback, and every method body runs on one
    thread.  Methods are embedded in a state-and-exception monad over the
    frame; [async] methods return a promise that is settled by a later host
    message. *)

From Stdlib Require Import String List Bool PrimFloat.
From Stdlib Require Import Arith Lia.
Import ListNotations.
Local Open Scope string_scope.
Local Open Scope list_scope.

Set Warnings "-register-all".

(** ** JavaScript values *)

(** The values that travel through the store are typed [any] in the source.
    Numbers are IEEE doubles; objects are association lists in insertion
    order (the order in which [Object.keys] enumerates them). *)
Inductive value : Type :=
| VUndefined
| VNull
| VBool (b : bool)
| VNum (n : float)
| VStr (s : string)
| VArr (items : list value)
| VObj (fields : list (string * value)).

(** What a [throw] or a failing property access raises. *)
Inductive exn : Type :=
| Error (message : string)
| TypeError.

(** How an evaluation ends. *)
Inductive Completion (A : Type) : Type :=
| Normal (a : A)
| Throw (e : exn).

Arguments Normal {A} a.
Arguments Throw {A} e.

(** ToBoolean: [undefined], [null], [false], [+0], [-0], [NaN] and the empty
    string are falsy, every other value is truthy. *)
Definition truthy (v : value) : bool :=
  match v with
  | VUndefined | VNull => false
  | VBool b => b
  | VNum n => negb (PrimFloat.eqb n PrimFloat.zero || negb (PrimFloat.eqb n n))
  | VStr s => negb (String.eqb s "")
  | VArr _ | VObj _ => true
  end.

(** The own property [key] of an object, first binding. *)
Fixpoint lookupKey (key : string) (fields : list (string * value)) : option value :=
  match fields with
  | [] => None
  | (k, v) :: rest => if String.eqb key k then Some v else lookupKey key rest
  end.

(** [destination[key] = v]: an existing key keeps its place, a new key goes
    last. *)
Fixpoint assignKey (key : string) (v : value) (destination : list (string * value))
  : list (string * value) :=
  match destination with
  | [] => [(key, v)]
  | (k, old) :: rest =>
      if String.eqb key k then (k, v) :: rest else (k, old) :: assignKey key v rest
  end.

(** The property access [v.key].  It throws a TypeError on [undefined] and
    [null]; a missing property reads as [undefined].  The keys read by the
    store ([overrides], [remixData], [encryptedValue], [decryptedValue]) are
    on no prototype, so primitives and arrays have none of them. *)
Definition member (v : value) (key : string) : Completion value :=
  match v with
  | VUndefined | VNull => Throw TypeError
  | VObj fields =>
      match lookupKey key fields with
      | Some x => Normal x
      | None => Normal VUndefined
      end
  | VBool _ | VNum _ | VStr _ | VArr _ => Normal VUndefined
  end.

(** ** The merge of value trees *)

(** Modelled from the spec: [deepmerge] is the npm dependency imported at
    line 1 of the source, called with the option [arrayMerge].  Section 3 of
    the spec gives its rule: two sequences are combined by [arrayMerge], two
    mappings are merged key by key, recursively, and in every other case the
    source value replaces the target value.  The keys of the target come
    first, in their order, and the new keys of the source follow. *)
Fixpoint deepmerge (arrayMerge : value -> value -> value) (target source : value)
  {struct source} : value :=
  match source with
  | VArr _ =>
      match target with
      | VArr _ => arrayMerge target source
      | _ => source
      end
  | VObj sfields =>
      match target with
      | VObj tfields =>
          VObj ((fix mergeInto (srcs destination : list (string * value)) :=
                   match srcs with
                   | [] => destination
                   | (key, sv) :: rest =>
                       mergeInto rest
                         (assignKey key
                            match lookupKey key tfields with
                            | Some tv => deepmerge arrayMerge tv sv
                            | None => sv
                            end
                            destination)
                   end) sfields tfields)
      | _ => source
      end
  | _ => source
  end.

(** The value written at [key] when the source binds it to [sv]. *)
Definition mergedField (arrayMerge : value -> value -> value)
  (tfields : list (string * value)) (key : string) (sv : value) : value :=
  match lookupKey key tfields with
  | Some tv => deepmerge arrayMerge tv sv
  | None => sv
  end.

(** The key-by-key loop of [deepmerge] on two mappings, as a fold. *)
Definition mergeObject (arrayMerge : value -> value -> value)
  (tfields sfields : list (string * value)) : list (string * value) :=
  fold_left
    (fun destination kv =>
       assignKey (fst kv) (mergedField arrayMerge tfields (fst kv) (snd kv)) destination)
    sfields tfields.

(** ** Nested lookup *)

Module Utils.

(** Modelled from the spec: [get] of src/utils/get, imported at line 2 of the
    source, is not among the available files.  Section 4.2 of the spec: a
    nested lookup along an ordered sequence of keys that returns
    [defaultValue] if any segment is absent and the value found otherwise. *)
Fixpoint get (object : value) (path : list string) (defaultValue : value) : value :=
  match path with
  | [] => object
  | key :: rest =>
      match object with
      | VObj fields =>
          match lookupKey key fields with
          | Some v => get v rest defaultValue
          | None => defaultValue
          end
      | _ => defaultValue
      end
  end.

End Utils.

(** ** The frame: globals, the store instance and the host channel *)

(** An outbound message, as handed to [sendMessage]. *)
Record PostMessage : Type := {
  kojiEventName : string;
  data : option value
}.

(** An inbound message from the host: its event name and data payload. *)
Record HostMessage : Type := {
  event : string;
  payload : value
}.

(** The private fields of the [Remix] instance. *)
Record Remix : Type := {
  values : value;
  isInitialized : bool;
  hasReceivedReadyResponse : bool
}.

(** Everything a method can read or change: the global
    [window.KOJI_OVERRIDES] ([VUndefined] when the host wrote none), the
    fields of [this], the callbacks registered on the message channel and
    the messages posted to the host so far, oldest first. *)
Record Frame : Type := {
  KOJI_OVERRIDES : value;
  this : Remix;
  callbacks : list (string * (Remix -> Remix));
  posted : list PostMessage
}.

Definition withThis (r : Remix) (w : Frame) : Frame :=
  {| KOJI_OVERRIDES := KOJI_OVERRIDES w; this := r;
     callbacks := callbacks w; posted := posted w |}.

Definition withCallbacks (cbs : list (string * (Remix -> Remix))) (w : Frame) : Frame :=
  {| KOJI_OVERRIDES := KOJI_OVERRIDES w; this := this w;
     callbacks := cbs; posted := posted w |}.

Definition withPosted (ms : list PostMessage) (w : Frame) : Frame :=
  {| KOJI_OVERRIDES := KOJI_OVERRIDES w; this := this w;
     callbacks := callbacks w; posted := ms |}.

(** ** The monad of method bodies *)

(** A statement runs in a frame and ends normally or by a throw; what it
    changed before a throw stays changed. *)
Definition M (A : Type) : Type := Frame -> Completion A * Frame.

Definition ret {A : Type} (a : A) : M A := fun w => (Normal a, w).

Definition bind {A B : Type} (c : M A) (k : A -> M B) : M B :=
  fun w =>
    match c w with
    | (Normal a, w') => k a w'
    | (Throw e, w') => (Throw e, w')
    end.

Definition throw {A : Type} (e : exn) : M A := fun w => (Throw e, w).

Declare Scope js_scope.
Delimit Scope js_scope with js.
Notation "x <- c ;; k" := (bind c (fun x => k))
  (at level 61, c at next level, right associativity) : js_scope.
Notation "c ;; k" := (bind c (fun _ => k))
  (at level 61, right associativity) : js_scope.
Local Open Scope js_scope.

(** [if (c) throw e;] *)
Definition throwIf (c : bool) (e : exn) : M unit :=
  if c then throw e else ret tt.

(** An expression that may throw, evaluated as a statement. *)
Definition eval {A : Type} (c : Completion A) : M A := fun w => (c, w).

Definition readThis : M Remix := fun w => (Normal (this w), w).

Definition readWindowOverrides : M value := fun w => (Normal (KOJI_OVERRIDES w), w).

(** [this.values = v] *)
Definition assignValues (v : value) : M unit :=
  fun w =>
    (Normal tt,
     withThis {| values := v;
                 isInitialized := isInitialized (this w);
                 hasReceivedReadyResponse := hasReceivedReadyResponse (this w) |} w).

(** [this.isInitialized = b] *)
Definition assignIsInitialized (b : bool) : M unit :=
  fun w =>
    (Normal tt,
     withThis {| values := values (this w);
                 isInitialized := b;
                 hasReceivedReadyResponse := hasReceivedReadyResponse (this w) |} w).

(** ** Promises *)

(** The promise an [async] method returns: settled, or waiting for the host
    message named [replyName], whose payload resumes the method. *)
Inductive Promise (T : Type) : Type :=
| Fulfilled (t : T)
| Rejected (e : exn)
| Pending (replyName : string) (resume : value -> Promise T).

Arguments Fulfilled {T} t.
Arguments Rejected {T} e.
Arguments Pending {T} replyName resume.

(** [const x = await p; rest]: the rest of an async body runs when [p] is
    fulfilled; a throw in it rejects the method's promise. *)
Fixpoint await {A B : Type} (p : Promise A) (rest : A -> Completion B) : Promise B :=
  match p with
  | Fulfilled a =>
      match rest a with
      | Normal b => Fulfilled b
      | Throw e => Rejected e
      end
  | Rejected e => Rejected e
  | Pending name resume => Pending name (fun d => await (resume d) rest)
  end.

(** An [async] method never throws to its caller: a throw before the first
    [await] rejects the returned promise. *)
Definition async {T : Type} (body : M (Promise T)) : M (Promise T) :=
  fun w =>
    match body w with
    | (Throw e, w') => (Normal (Rejected e), w')
    | r => r
    end.

(** Modelled from the spec: how the bridge settles a waiting call, not among
    the available files.  Section 4.1: the call resumes when a message whose
    name equals the expected reply name arrives, with that message's data
    payload; any other message leaves it waiting. *)
Definition deliver {T : Type} (m : HostMessage) (p : Promise T) : Promise T :=
  match p with
  | Pending name resume => if String.eqb (event m) name then resume (payload m) else p
  | _ => p
  end.

(** ** The message bridge *)

(** Modelled from the spec: the class [KojiBridge] of src/frontend/kojiBridge,
    which [Remix] extends, is not among the available files.  Section 4.1 of
    the spec: [sendMessage] dispatches the event to the host, fire and
    forget. *)
Definition sendMessage (postMessage : PostMessage) : M unit :=
  fun w => (Normal tt, withPosted (posted w ++ [postMessage]) w).

(** Modelled from the spec: [KojiBridge.sendMessageAndAwaitResponse], not
    among the available files.  Section 4.1: it dispatches the event exactly
    as [sendMessage] does, then suspends the calling operation until a
    message whose name equals the expected reply name arrives, and resumes
    with that message's data payload. *)
Definition sendMessageAndAwaitResponse (postMessage : PostMessage)
  (platformMessageName : string) : M (Promise value) :=
  sendMessage postMessage ;;
  ret (Pending platformMessageName (fun d => Fulfilled d)).

(** Modelled from the spec: [KojiBridge.execCallbackOnMessage], not among the
    available files.  Section 4.1 ([onMessage]): it registers the callback to
    run every time a message with the given name arrives and returns at
    once; the registration is never removed. *)
Definition execCallbackOnMessage (callback : Remix -> Remix) (eventName : string)
  : M unit :=
  fun w => (Normal tt, withCallbacks (callbacks w ++ [(eventName, callback)]) w).

(** Modelled from the spec: the dispatch of an inbound host message by the
    bridge, not among the available files.  Section 4.1: every callback
    registered under the message's name runs, in registration order. *)
Definition runCallbacks (m : HostMessage) (cbs : list (string * (Remix -> Remix)))
  (r : Remix) : Remix :=
  fold_left
    (fun acc cb => if String.eqb (event m) (fst cb) then snd cb acc else acc)
    cbs r.

Definition receive (m : HostMessage) : M unit :=
  fun w => (Normal tt, withThis (runCallbacks m (callbacks w) (this w)) w).

(** Modelled from the spec: the method decorator [client] of
    src/frontend/@decorators/client is not among the available files and the
    spec gives it no behaviour of its own; in the browser frame modelled
    here a decorated method is the method. *)
Definition client {A : Type} (method : M A) : M A := method.

(** ** The class [Remix] *)

(** The field initializers of the class (lines 29-31): [values = {}],
    [isInitialized = false], [hasReceivedReadyResponse = false]. *)
Definition fieldInitializers : Remix :=
  {| values := VObj []; isInitialized := false; hasReceivedReadyResponse := false |}.

(** The readiness callback of the constructor (lines 40-42):
    [() => { this.hasReceivedReadyResponse = true; }]. *)
Definition readyCallback (r : Remix) : Remix :=
  {| values := values r; isInitialized := isInitialized r;
     hasReceivedReadyResponse := true |}.

(** [constructor()] (lines 33-44), in a frame where [window] is defined. *)
Definition constructor : M unit :=
  execCallbackOnMessage readyCallback "KojiPreview.IsRemixing".

(** [export const remix = new Remix()] (line 261): the frame right after the
    module is loaded, with the host's overrides [ko] in
    [window.KOJI_OVERRIDES]. *)
Definition newRemix (ko : value) : Frame :=
  snd (constructor {| KOJI_OVERRIDES := ko; this := fieldInitializers;
                      callbacks := []; posted := [] |}).

(** The messages of the four [throw] statements. *)
Definition unableToFindRemixData : string := "Unable to find remixData".

Definition initializedMoreThanOnce : string :=
  "You are trying to initialize your remix data more than one time. Note that Koji.config() will automatically call this method.".

Definition setBeforeReady : string :=
  "It looks like you are trying to call the `Koji.remix.set()` method before calling `Koji.ready(). This will prevent data from being stored properly.`".

Definition finishBeforeReady : string :=
  "It looks like you are trying to call the `Koji.remix.finish()` method before calling `Koji.ready(). This will result in unpredictable behavior in a remix preview.`".

(** The option passed to both calls of [deepmerge] (lines 77 and 126):
    [arrayMerge: (dest, source) => source]. *)
Definition arrayMerge (dest source : value) : value := source.

(** [init(remixData)] (lines 61-79). *)
Definition init (remixData : value) : M unit :=
  client (
    throwIf (negb (truthy remixData)) (Error unableToFindRemixData) ;;
    r <- readThis ;;
    throwIf (isInitialized r) (Error initializedMoreThanOnce) ;;
    assignIsInitialized true ;;
    ko <- readWindowOverrides ;;
    guard <- (if truthy ko then eval (member ko "overrides") else ret ko) ;;
    overrides <-
      (if truthy guard then
         o <- eval (member ko "overrides") ;;
         rd <- eval (member o "remixData") ;;
         ret (if truthy rd then rd else VObj [])
       else ret (VObj [])) ;;
    assignValues (deepmerge arrayMerge remixData overrides)).

(** [get(path?, defaultValue?)] (lines 101-106).  An omitted [path] is
    [None]; the empty array is truthy and goes to the nested lookup. *)
Definition get (path : option (list string)) (defaultValue : value) : M value :=
  client (
    match path with
    | None => r <- readThis ;; ret (values r)
    | Some keys => r <- readThis ;; ret (Utils.get (values r) keys defaultValue)
    end).

(** [sendValues()] (lines 244-258). *)
Definition sendValues : M (Promise bool) :=
  async (
    r <- readThis ;;
    p <- sendMessageAndAwaitResponse
           {| kojiEventName := "KojiPreview.SetValue";
              data := Some (VObj [("path", VArr [VStr "remixData"]);
                                  ("newValue", values r);
                                  ("skipUpdate", VBool false)]) |}
           "KojiPreview.DidChangeVcc" ;;
    ret (await p (fun d => Normal (truthy d)))).

(** [set(newValue)] (lines 121-129): not [async], so its throw reaches the
    caller. *)
Definition set (newValue : value) : M (Promise bool) :=
  client (
    r <- readThis ;;
    throwIf (negb (hasReceivedReadyResponse r)) (Error setBeforeReady) ;;
    assignValues (deepmerge arrayMerge (values r) newValue) ;;
    sendValues).

(** [overwrite(newValues)] (lines 145-149). *)
Definition overwrite (newValues : value) : M (Promise bool) :=
  client (
    assignValues newValues ;;
    sendValues).

(** [finish()] (lines 161-168). *)
Definition finish : M unit :=
  client (
    r <- readThis ;;
    throwIf (negb (hasReceivedReadyResponse r)) (Error finishBeforeReady) ;;
    sendMessage {| kojiEventName := "KojiPreview.Finish"; data := None |}).

(** [cancel()] (lines 178-183). *)
Definition cancel : M unit :=
  client (sendMessage {| kojiEventName := "KojiPreview.Cancel"; data := None |}).

(** [encryptValue(rawValue)] (lines 196-209). *)
Definition encryptValue (rawValue : value) : M (Promise value) :=
  client (async (
    p <- sendMessageAndAwaitResponse
           {| kojiEventName := "KojiPreview.EncryptValue";
              data := Some (VObj [("plaintextValue", rawValue)]) |}
           "KojiPreview.ValueEncrypted" ;;
    ret (await p (fun d => member d "encryptedValue")))).

(** [decryptValue(encryptedValue)] (lines 224-237). *)
Definition decryptValue (encryptedValue : value) : M (Promise value) :=
  client (async (
    p <- sendMessageAndAwaitResponse
           {| kojiEventName := "KojiPreview.DecryptValue";
              data := Some (VObj [("encryptedValue", encryptedValue)]) |}
           "KojiPreview.ValueDecrypted" ;;
    ret (await p (fun d => member d "decryptedValue")))).

(** ** Traces of the store *)

(** What can happen to the frame: a call of a public method, or the arrival
    of a host message. *)
Inductive action : Type :=
| CallInit (remixData : value)
| CallGet (path : option (list string)) (defaultValue : value)
| CallSet (newValue : value)
| CallOverwrite (newValues : value)
| CallFinish
| CallCancel
| CallEncryptValue (rawValue : value)
| CallDecryptValue (encryptedValue : value)
| HostSends (m : HostMessage).

(** The frame after an action; the caller keeps or drops what was returned
    or thrown. *)
Definition exec (a : action) (w : Frame) : Frame :=
  match a with
  | CallInit d => snd (init d w)
  | CallGet p dv => snd (get p dv w)
  | CallSet v => snd (set v w)
  | CallOverwrite v => snd (overwrite v w)
  | CallFinish => snd (finish w)
  | CallCancel => snd (cancel w)
  | CallEncryptValue v => snd (encryptValue v w)
  | CallDecryptValue v => snd (decryptValue v w)
  | HostSends m => snd (receive m w)
  end.

Definition run (trace : list action) (w : Frame) : Frame :=
  fold_left (fun acc a => exec a acc) trace w.

(** ** Notions of the spec *)

(** The error kinds of section 7 of the spec.  The code throws plain [Error]
    objects; the kind is read off the throw site, that is, off the message. *)
Inductive ErrorKind : Type := ConfigurationError | StateError.

Definition errorKind (e : exn) : option ErrorKind :=
  match e with
  | Error m =>
      if String.eqb m unableToFindRemixData then Some ConfigurationError
      else if String.eqb m initializedMoreThanOnce then Some StateError
      else if String.eqb m setBeforeReady then Some StateError
      else if String.eqb m finishBeforeReady then Some StateError
      else None
  | TypeError => None
  end.

(** The override tree the host supplies, as section 6 of the spec words it:
    the field [overrides.remixData] of the environment payload, a mapping,
    taken as the empty tree when the payload or the field is absent.  [None]
    where the payload has another shape. *)
Definition overrideTree (ko : value) : option value :=
  match ko with
  | VUndefined => Some (VObj [])
  | VObj kfields =>
      match lookupKey "overrides" kfields with
      | None => Some (VObj [])
      | Some (VObj ofields) =>
          match lookupKey "remixData" ofields with
          | None => Some (VObj [])
          | Some (VObj tree) => Some (VObj tree)
          | Some _ => None
          end
      | Some _ => None
      end
  | _ => None
  end.

(** [HasAt tree path v]: every segment of [path] is present in [tree], and
    [v] is the value stored there. *)
Inductive HasAt : value -> list string -> value -> Prop :=
| HasAt_here : forall v, HasAt v [] v
| HasAt_step : forall fields key rest x v,
    lookupKey key fields = Some x ->
    HasAt x rest v ->
    HasAt (VObj fields) (key :: rest) v.

(** The message of a push: the change event with the fixed path, the tree
    and the flag. *)
Definition pushMessage (tree : value) : PostMessage :=
  {| kojiEventName := "KojiPreview.SetValue";
     data := Some (VObj [("path", VArr [VStr "remixData"]);
                         ("newValue", tree);
                         ("skipUpdate", VBool false)]) |}.

(** The frame with the store's tree replaced. *)
Definition withValues (v : value) (w : Frame) : Frame :=
  withThis {| values := v; isInitialized := isInitialized (this w);
              hasReceivedReadyResponse := hasReceivedReadyResponse (this w) |} w.

(** The overrides [init] computes from [window.KOJI_OVERRIDES] (lines
    71-74), as one expression: used to state what [init] leaves in the
    store. *)
Definition readOverrides (ko : value) : value :=
  match ko with
  | VObj kfields =>
      match lookupKey "overrides" kfields with
      | Some (VObj ofields) =>
          match lookupKey "remixData" ofields with
          | Some rd => if truthy rd then rd else VObj []
          | None => VObj []
          end
      | _ => VObj []
      end
  | _ => VObj []
  end.

(** The frame [init] leaves when it succeeds. *)
Definition initialized (remixData : value) (w : Frame) : Frame :=
  withThis {| values := deepmerge arrayMerge remixData (readOverrides (KOJI_OVERRIDES w));
              isInitialized := true;
              hasReceivedReadyResponse := hasReceivedReadyResponse (this w) |} w.

(** Whether a call ended normally. *)
Definition returned {A : Type} (r : Completion A * Frame) : bool :=
  match fst r with
  | Normal _ => true
  | Throw _ => false
  end.

(** The callbacks the constructor leaves registered. *)
Definition registeredCallbacks : list (string * (Remix -> Remix)) :=
  [("KojiPreview.IsRemixing", readyCallback)].

(** Whether an action is the arrival of the host's readiness signal. *)
Definition isReadySignal (a : action) : bool :=
  match a with
  | HostSends m => String.eqb (event m) "KojiPreview.IsRemixing"
  | _ => false
  end.

(** What section 3 of the spec says a key of the merged tree holds, given
    what the default tree and the override tree hold there. *)
Definition mergeRule (fromDefaults fromOverrides : option value) : option value :=
  match fromOverrides with
  | None => fromDefaults
  | Some (VArr items) => Some (VArr items)
  | Some (VObj ofields) =>
      match fromDefaults with
      | Some (VObj dfields) => Some (deepmerge arrayMerge (VObj dfields) (VObj ofields))
      | _ => Some (VObj ofields)
      end
  | Some scalar => Some scalar
  end.

(** Sample data: the scenario of section 8 of the spec, with a sequence
    added to the defaults and overridden by the host. *)
Definition sampleDefaults : value :=
  VObj [("colors", VObj [("bg", VStr "#fff")]); ("tags", VArr [VStr "a"; VStr "b"])].

Definition sampleOverrides : value :=
  VObj [("tags", VArr [VStr "c"])].

Definition sampleHost : value :=
  VObj [("overrides", VObj [("remixData", sampleOverrides)])].

Definition samplePartial : value :=
  VObj [("colors", VObj [("text", VStr "#000")])].

Definition readySignal : HostMessage :=
  {| event := "KojiPreview.IsRemixing"; payload := VUndefined |}.

(** The store after one successful [init] with an empty tree and no host
    overrides. *)
Definition onceInitialized : Frame := snd (init (VObj []) (newRemix VUndefined)).

(** ** Notions for traces and replies *)

(** Whether an action is a call of [init] with a truthy argument. *)
Definition isTruthyInit (a : action) : bool :=
  match a with
  | CallInit d => truthy d
  | _ => false
  end.

(** The calls that assign [this.values]: [init], [set] and [overwrite]. *)
Definition isWrite (a : action) : bool :=
  match a with
  | CallInit _ | CallSet _ | CallOverwrite _ => true
  | _ => false
  end.

Definition isOverwrite (a : action) : bool :=
  match a with
  | CallOverwrite _ => true
  | _ => false
  end.

(** The calls whose body reaches [sendMessage] or
    [sendMessageAndAwaitResponse]: all but [init] and [get]. *)
Definition canPost (a : action) : bool :=
  match a with
  | CallInit _ | CallGet _ _ | HostSends _ => false
  | _ => true
  end.

(** Whether an action pushes the tree in the frame [w]: [overwrite] always,
    [set] once the readiness flag is up. *)
Definition pushes (a : action) (w : Frame) : bool :=
  match a with
  | CallOverwrite _ => true
  | CallSet _ => hasReceivedReadyResponse (this w)
  | _ => false
  end.

(** How many calls of [init] in a trace return normally. *)
Fixpoint successfulInits (trace : list action) (w : Frame) : nat :=
  match trace with
  | [] => 0
  | a :: rest =>
      match a with
      | CallInit d => if returned (init d w) then 1 else 0
      | _ => 0
      end + successfulInits rest (exec a w)
  end.

Definition named (name : string) (m : PostMessage) : bool :=
  String.eqb (kojiEventName m) name.

(** The tree a posted message carries, when it is a push. *)
Definition pushedTree (m : PostMessage) : option value :=
  if named "KojiPreview.SetValue" m then
    match data m with
    | Some (VObj fields) => lookupKey "newValue" fields
    | _ => None
    end
  else None.

(** The tree of the latest push among the posted messages: the copy of the
    tree the host holds. *)
Fixpoint lastPush (ms : list PostMessage) : option value :=
  match ms with
  | [] => None
  | m :: rest =>
      match lastPush rest with
      | Some tree => Some tree
      | None => pushedTree m
      end
  end.

(** The host messages [ms] arriving one after the other at a promise. *)
Definition deliverAll {T : Type} (ms : list HostMessage) (p : Promise T) : Promise T :=
  fold_left (fun q m => deliver m q) ms p.

(** The payload of the first message named [name]. *)
Fixpoint firstReply (name : string) (ms : list HostMessage) : option value :=
  match ms with
  | [] => None
  | m :: rest => if String.eqb (event m) name then Some (payload m) else firstReply name rest
  end.

(** Whether an action posts a message named [name] while the readiness flag
    is down: [set] and [finish] throw then, the other senders do not look at
    the flag. *)
Definition postsBeforeReady (name : string) (a : action) : bool :=
  match a with
  | CallOverwrite _ => String.eqb "KojiPreview.SetValue" name
  | CallCancel => String.eqb "KojiPreview.Cancel" name
  | CallEncryptValue _ => String.eqb "KojiPreview.EncryptValue" name
  | CallDecryptValue _ => String.eqb "KojiPreview.DecryptValue" name
  | _ => false
  end.

(** * Properties *)

(** ** Objects *)

Lemma lookupKey_assignKey (key k : string) (v : value) (fields : list (string * value)) :
  lookupKey key (assignKey k v fields) =
  if String.eqb key k then Some v else lookupKey key fields.
Proof.
  induction fields as [| [k0 old] rest IH]; simpl.
  - reflexivity.
  - destruct (String.eqb_spec k k0) as [-> | Hk]; simpl.
    + destruct (String.eqb key k0); reflexivity.
    + rewrite IH.
      destruct (String.eqb_spec key k) as [-> | Hkey].
      * apply String.eqb_neq in Hk. rewrite Hk. reflexivity.
      * reflexivity.
Qed.

Lemma lookupKey_absent (key : string) (fields : list (string * value)) :
  ~ In key (map fst fields) -> lookupKey key fields = None.
Proof.
  induction fields as [| [k v] rest IH]; simpl; intros Hnotin.
  - reflexivity.
  - destruct (String.eqb_spec key k) as [-> | _].
    + exfalso. apply Hnotin. now left.
    + apply IH. intros Hin. apply Hnotin. now right.
Qed.

(** ** The merge *)

Lemma deepmerge_objects (am : value -> value -> value) (tfields sfields : list (string * value)) :
  deepmerge am (VObj tfields) (VObj sfields) = VObj (mergeObject am tfields sfields).
Proof.
  unfold mergeObject. simpl. f_equal.
  generalize tfields at 2 4 as destination.
  induction sfields as [| [key sv] rest IH]; intros destination; simpl.
  - reflexivity.
  - rewrite IH. reflexivity.
Qed.

Lemma lookupKey_merge_loop (am : value -> value -> value) (tfields : list (string * value))
  (key : string) (sfields destination : list (string * value)) :
  NoDup (map fst sfields) ->
  lookupKey key
    (fold_left
       (fun dest kv => assignKey (fst kv) (mergedField am tfields (fst kv) (snd kv)) dest)
       sfields destination) =
  match lookupKey key sfields with
  | Some sv => Some (mergedField am tfields key sv)
  | None => lookupKey key destination
  end.
Proof.
  revert destination.
  induction sfields as [| [k sv] rest IH]; intros destination Hnodup; simpl.
  - reflexivity.
  - inversion Hnodup as [| ? ? Hnotin Hrest]; subst.
    rewrite (IH _ Hrest), lookupKey_assignKey.
    destruct (String.eqb_spec key k) as [-> | _].
    + rewrite (lookupKey_absent _ _ Hnotin). reflexivity.
    + reflexivity.
Qed.

Lemma lookupKey_mergeObject (am : value -> value -> value)
  (tfields sfields : list (string * value)) (key : string) :
  NoDup (map fst sfields) ->
  lookupKey key (mergeObject am tfields sfields) =
  match lookupKey key sfields with
  | Some sv => Some (mergedField am tfields key sv)
  | None => lookupKey key tfields
  end.
Proof. apply lookupKey_merge_loop. Qed.

Lemma deepmerge_source_array (target : value) (items : list value) :
  deepmerge arrayMerge target (VArr items) = VArr items.
Proof. destruct target; reflexivity. Qed.

(** ** What each method does to the frame *)

Lemma init_unfold (remixData : value) (w : Frame) :
  init remixData w =
  if negb (truthy remixData) then (Throw (Error unableToFindRemixData), w)
  else if isInitialized (this w) then (Throw (Error initializedMoreThanOnce), w)
  else (Normal tt, initialized remixData w).
Proof.
  unfold init, client, bind, throwIf, readThis.
  destruct (truthy remixData); simpl; [| reflexivity].
  destruct w as [ko [vals ini rdy] cbs out]; simpl.
  destruct ini; simpl; [reflexivity |].
  unfold initialized, withThis, readOverrides, eval, ret, readWindowOverrides,
    assignValues, member.
  cbn -[truthy deepmerge lookupKey].
  destruct ko as [| | b | n | s | items | kfields].
  - reflexivity.
  - reflexivity.
  - destruct b; reflexivity.
  - destruct (truthy (VNum n)) eqn:E; cbn -[truthy]; rewrite ?E; reflexivity.
  - destruct (truthy (VStr s)) eqn:E; cbn -[truthy]; rewrite ?E; reflexivity.
  - reflexivity.
  - change (truthy (VObj kfields)) with true. cbv iota.
    destruct (lookupKey "overrides" kfields) as [o |]; [| reflexivity].
    cbn -[truthy deepmerge lookupKey].
    destruct o as [| | b | n | s | items | ofields].
    + reflexivity.
    + reflexivity.
    + destruct b; reflexivity.
    + destruct (truthy (VNum n)) eqn:E; cbn -[truthy]; rewrite ?E; reflexivity.
    + destruct (truthy (VStr s)) eqn:E; cbn -[truthy]; rewrite ?E; reflexivity.
    + reflexivity.
    + change (truthy (VObj ofields)) with true. cbv iota.
      destruct (lookupKey "remixData" ofields) as [rd |]; reflexivity.
Qed.

Lemma get_unfold (path : option (list string)) (defaultValue : value) (w : Frame) :
  get path defaultValue w =
  (Normal match path with
          | None => values (this w)
          | Some keys => Utils.get (values (this w)) keys defaultValue
          end, w).
Proof. destruct path; reflexivity. Qed.

Lemma sendValues_unfold (w : Frame) :
  sendValues w =
  (Normal (Pending "KojiPreview.DidChangeVcc" (fun d => Fulfilled (truthy d))),
   withPosted (posted w ++ [pushMessage (values (this w))]) w).
Proof. reflexivity. Qed.

Lemma set_unfold (newValue : value) (w : Frame) :
  set newValue w =
  if hasReceivedReadyResponse (this w)
  then sendValues (withValues (deepmerge arrayMerge (values (this w)) newValue) w)
  else (Throw (Error setBeforeReady), w).
Proof.
  unfold set, client, bind, throwIf, readThis.
  destruct (hasReceivedReadyResponse (this w)); reflexivity.
Qed.

Lemma overwrite_unfold (newValues : value) (w : Frame) :
  overwrite newValues w = sendValues (withValues newValues w).
Proof. reflexivity. Qed.

Lemma finish_unfold (w : Frame) :
  finish w =
  if hasReceivedReadyResponse (this w)
  then (Normal tt,
        withPosted (posted w ++ [{| kojiEventName := "KojiPreview.Finish"; data := None |}]) w)
  else (Throw (Error finishBeforeReady), w).
Proof.
  unfold finish, client, bind, throwIf, readThis.
  destruct (hasReceivedReadyResponse (this w)); reflexivity.
Qed.

Lemma encryptValue_unfold (rawValue : value) (w : Frame) :
  encryptValue rawValue w =
  (Normal (Pending "KojiPreview.ValueEncrypted"
             (fun d => await (Fulfilled d) (fun d' => member d' "encryptedValue"))),
   withPosted (posted w ++ [{| kojiEventName := "KojiPreview.EncryptValue";
                               data := Some (VObj [("plaintextValue", rawValue)]) |}]) w).
Proof. reflexivity. Qed.

Lemma decryptValue_unfold (encryptedValue : value) (w : Frame) :
  decryptValue encryptedValue w =
  (Normal (Pending "KojiPreview.ValueDecrypted"
             (fun d => await (Fulfilled d) (fun d' => member d' "decryptedValue"))),
   withPosted (posted w ++ [{| kojiEventName := "KojiPreview.DecryptValue";
                               data := Some (VObj [("encryptedValue", encryptedValue)]) |}]) w).
Proof. reflexivity. Qed.

(** ** Traces *)

Ltac by_method_cases :=
  repeat match goal with
    | |- context [if ?c then _ else _] => let E := fresh "E" in destruct c eqn:E
    end; simpl; try congruence.

Lemma callbacks_exec (a : action) (w : Frame) :
  callbacks (exec a w) = callbacks w.
Proof.
  destruct a; simpl;
    rewrite ?init_unfold, ?get_unfold, ?set_unfold, ?overwrite_unfold,
      ?finish_unfold, ?sendValues_unfold; by_method_cases.
Qed.

Lemma callbacks_run (trace : list action) (w : Frame) :
  callbacks (run trace w) = callbacks w.
Proof.
  revert w. induction trace as [| a rest IH]; intros w; simpl.
  - reflexivity.
  - unfold run in IH. rewrite IH. apply callbacks_exec.
Qed.

Lemma callbacks_reachable (ko : value) (trace : list action) :
  callbacks (run trace (newRemix ko)) = registeredCallbacks.
Proof. rewrite callbacks_run. reflexivity. Qed.

(** One action changes the readiness flag only by raising it, and only the
    readiness signal raises it. *)
Lemma ready_exec (a : action) (w : Frame) :
  callbacks w = registeredCallbacks ->
  hasReceivedReadyResponse (this (exec a w)) =
  hasReceivedReadyResponse (this w) || isReadySignal a.
Proof.
  intros Hcbs.
  destruct a; simpl;
    rewrite ?init_unfold, ?get_unfold, ?set_unfold, ?overwrite_unfold,
      ?finish_unfold, ?sendValues_unfold.
  9: { rewrite Hcbs. simpl.
       destruct (String.eqb (event m) "KojiPreview.IsRemixing"); simpl.
       - now rewrite orb_true_r.
       - now rewrite orb_false_r. }
  all: by_method_cases; now rewrite ?orb_false_r.
Qed.

Lemma initialized_exec (a : action) (w : Frame) :
  callbacks w = registeredCallbacks ->
  isInitialized (this w) = true ->
  isInitialized (this (exec a w)) = true.
Proof.
  intros Hcbs Hinit.
  destruct a; simpl;
    rewrite ?init_unfold, ?get_unfold, ?set_unfold, ?overwrite_unfold,
      ?finish_unfold, ?sendValues_unfold.
  9: { rewrite Hcbs. simpl.
       destruct (String.eqb (event m) "KojiPreview.IsRemixing"); exact Hinit. }
  all: by_method_cases; exact Hinit.
Qed.

Lemma ready_run (trace : list action) (w : Frame) :
  callbacks w = registeredCallbacks ->
  hasReceivedReadyResponse (this w) = true ->
  hasReceivedReadyResponse (this (run trace w)) = true.
Proof.
  revert w. induction trace as [| a rest IH]; intros w Hcbs Hready; simpl.
  - exact Hready.
  - apply IH.
    + now rewrite callbacks_exec.
    + rewrite (ready_exec a w Hcbs), Hready. reflexivity.
Qed.

Lemma initialized_run (trace : list action) (w : Frame) :
  callbacks w = registeredCallbacks ->
  isInitialized (this w) = true ->
  isInitialized (this (run trace w)) = true.
Proof.
  revert w. induction trace as [| a rest IH]; intros w Hcbs Hinit; simpl.
  - exact Hinit.
  - apply IH.
    + now rewrite callbacks_exec.
    + now apply initialized_exec.
Qed.

(** ** Nested lookup *)

Lemma Utils_get_present (tree : value) (path : list string) (v fallback : value) :
  HasAt tree path v -> Utils.get tree path fallback = v.
Proof.
  induction 1 as [v | fields key rest x v Hkey _ IH]; simpl.
  - reflexivity.
  - rewrite Hkey. exact IH.
Qed.

Lemma Utils_get_absent (path : list string) (tree fallback : value) :
  (forall v, ~ HasAt tree path v) -> Utils.get tree path fallback = fallback.
Proof.
  revert tree. induction path as [| key rest IH]; intros tree Habsent; simpl.
  - exfalso. apply (Habsent tree). constructor.
  - destruct tree; try reflexivity.
    destruct (lookupKey key fields) as [x |] eqn:Hkey; [| reflexivity].
    apply IH. intros v Hv. apply (Habsent v). econstructor; eassumption.
Qed.

Lemma overrideTree_readOverrides (ko tree : value) :
  overrideTree ko = Some tree -> readOverrides ko = tree.
Proof.
  unfold overrideTree, readOverrides.
  destruct ko as [| | b | n | s | items | kfields]; try discriminate.
  - now intros [= <-].
  - destruct (lookupKey "overrides" kfields) as [o |]; [| now intros [= <-]].
    destruct o as [| | b | n | s | items | ofields]; try discriminate.
    destruct (lookupKey "remixData" ofields) as [rd |]; [| now intros [= <-]].
    destruct rd; try discriminate. now intros [= <-].
Qed.

(** ** The store *)

(** C1: for every truthy default value [D] (every default tree is one) and
    every override tree [O] the host supplies in
    [window.KOJI_OVERRIDES.overrides.remixData] (the empty tree when absent),
    [init(D)] on a store not yet initialized succeeds and a following [get()]
    without path returns [deepmerge(D, O)]; in a merge of two mappings every
    key holds what the merge rule says: a sequence of [O] replaces the field
    of [D] wholesale, two mappings are merged recursively, any other value of
    [O] replaces, and keys [O] does not bind keep the value of [D]. *)
Theorem init_then_get_returns_deepmerge (D O : value) (w : Frame) (fallback : value) :
  truthy D = true ->
  isInitialized (this w) = false ->
  overrideTree (KOJI_OVERRIDES w) = Some O ->
  (exists w', init D w = (Normal tt, w')
     /\ get None fallback w' = (Normal (deepmerge arrayMerge D O), w'))
  /\ (forall dfields ofields, NoDup (map fst ofields) ->
        exists merged,
          deepmerge arrayMerge (VObj dfields) (VObj ofields) = VObj merged
          /\ forall key,
               lookupKey key merged =
               mergeRule (lookupKey key dfields) (lookupKey key ofields)).
Proof.
  intros HD Hinit HO. split.
  - exists (initialized D w). split.
    + rewrite init_unfold, HD, Hinit. reflexivity.
    + rewrite get_unfold. simpl.
      now rewrite (overrideTree_readOverrides _ _ HO).
  - intros dfields ofields Hnodup.
    exists (mergeObject arrayMerge dfields ofields). split.
    + apply deepmerge_objects.
    + intros key. rewrite lookupKey_mergeObject by exact Hnodup.
      unfold mergeRule, mergedField.
      destruct (lookupKey key ofields) as [sv |]; [| reflexivity].
      destruct (lookupKey key dfields) as [tv |].
      * destruct sv; try reflexivity.
        -- now rewrite deepmerge_source_array.
        -- destruct tv; reflexivity.
      * destruct sv; reflexivity.
Qed.

Lemma init_then_get_returns_deepmerge_witness :
  truthy sampleDefaults = true
  /\ isInitialized (this (newRemix sampleHost)) = false
  /\ overrideTree (KOJI_OVERRIDES (newRemix sampleHost)) = Some sampleOverrides
  /\ exists w', init sampleDefaults (newRemix sampleHost) = (Normal tt, w')
       /\ get None VUndefined w' =
          (Normal (deepmerge arrayMerge sampleDefaults sampleOverrides), w').
Proof.
  split; [reflexivity |]. split; [reflexivity |]. split; [reflexivity |].
  exact (proj1 (init_then_get_returns_deepmerge sampleDefaults sampleOverrides
                  (newRemix sampleHost) VUndefined eq_refl eq_refl eq_refl)).
Defined.

(** C2: [set(P)] while the readiness flag is false throws the
    write-before-ready error (a StateError), leaves the frame as it was and
    posts nothing; once the flag is true it merges [P] into the tree with
    the same [deepmerge] and [arrayMerge] as [init], posts exactly one push
    message carrying the whole merged tree, and returns the promise of that
    push, which is fulfilled with the truthiness of the acknowledgment. *)
Theorem set_is_gated_by_readiness (P : value) (w : Frame) :
  (hasReceivedReadyResponse (this w) = false ->
     set P w = (Throw (Error setBeforeReady), w)
     /\ errorKind (Error setBeforeReady) = Some StateError)
  /\ (hasReceivedReadyResponse (this w) = true ->
        exists p,
          set P w =
          (Normal p,
           withPosted (posted w ++ [pushMessage (deepmerge arrayMerge (values (this w)) P)])
             (withValues (deepmerge arrayMerge (values (this w)) P) w))
          /\ set P w = sendValues (withValues (deepmerge arrayMerge (values (this w)) P) w)
          /\ forall ack,
               deliver {| event := "KojiPreview.DidChangeVcc"; payload := ack |} p =
               Fulfilled (truthy ack)).
Proof.
  split; intros Hready; rewrite set_unfold, Hready.
  - split; reflexivity.
  - eexists. split; [reflexivity |]. split; [reflexivity |].
    intros ack. reflexivity.
Qed.

(** C3: [overwrite(T)] checks nothing: in every frame, initialized or not,
    ready or not, it returns normally, makes [T] the whole tree, so that a
    following [get()] without path returns exactly [T], and performs the
    push of [sendValues], the one [set] performs; on the fresh store, where
    [set] throws, it returns normally. *)
Theorem overwrite_replaces_the_tree (T : value) (w : Frame) (fallback : value) :
  exists p,
    overwrite T w =
    (Normal p, withPosted (posted w ++ [pushMessage T]) (withValues T w))
    /\ get None fallback (snd (overwrite T w)) = (Normal T, snd (overwrite T w))
    /\ overwrite T w = sendValues (withValues T w)
    /\ (forall P, hasReceivedReadyResponse (this w) = true ->
          set P w = sendValues (withValues (deepmerge arrayMerge (values (this w)) P) w))
    /\ (forall ko,
          returned (overwrite T (newRemix ko)) = true
          /\ returned (set T (newRemix ko)) = false)
    /\ (forall ack,
          deliver {| event := "KojiPreview.DidChangeVcc"; payload := ack |} p =
          Fulfilled (truthy ack)).
Proof.
  eexists. split; [reflexivity |]. split; [reflexivity |]. split; [reflexivity |].
  split; [| split].
  - intros P Hready. now rewrite set_unfold, Hready.
  - intros ko. split; reflexivity.
  - intros ack. reflexivity.
Qed.

(** C4: a push posts exactly one message, named [KojiPreview.SetValue], whose
    data is the path [["remixData"]], the whole current tree as the new
    value and [skipUpdate: false]; it changes nothing else; its promise
    waits for [KojiPreview.DidChangeVcc], ignores every other message, and
    is fulfilled with [true] for a truthy acknowledgment payload and [false]
    for a falsy one. *)
Theorem push_sends_the_full_tree (w : Frame) :
  exists p,
    sendValues w =
    (Normal p, withPosted (posted w ++ [pushMessage (values (this w))]) w)
    /\ pushMessage (values (this w)) =
       {| kojiEventName := "KojiPreview.SetValue";
          data := Some (VObj [("path", VArr [VStr "remixData"]);
                              ("newValue", values (this w));
                              ("skipUpdate", VBool false)]) |}
    /\ (forall ack,
          deliver {| event := "KojiPreview.DidChangeVcc"; payload := ack |} p =
          Fulfilled (truthy ack))
    /\ (forall m, String.eqb (event m) "KojiPreview.DidChangeVcc" = false ->
          deliver m p = p)
    /\ (forall b, p <> Fulfilled b).
Proof.
  eexists. split; [reflexivity |]. split; [reflexivity |]. split; [| split].
  - intros ack. reflexivity.
  - intros m Hm. simpl. now rewrite Hm.
  - intros b. discriminate.
Qed.

(** C5: the readiness flag is false in the store the module creates; along
    every trace of method calls and host messages an action leaves it as it
    was or raises it, and raises it exactly when it is the arrival of
    [KojiPreview.IsRemixing]; so once true it stays true, and once a [set] or
    a [finish] has passed its readiness test, every later [set] and
    [finish] passes it. *)
Theorem readiness_flag_is_monotone (ko : value) (trace : list action) :
  hasReceivedReadyResponse (this (newRemix ko)) = false
  /\ (forall a,
        hasReceivedReadyResponse (this (exec a (run trace (newRemix ko)))) =
        hasReceivedReadyResponse (this (run trace (newRemix ko))) || isReadySignal a)
  /\ (forall d,
        hasReceivedReadyResponse
          (this (exec (HostSends {| event := "KojiPreview.IsRemixing"; payload := d |})
                   (run trace (newRemix ko)))) = true)
  /\ (forall later,
        hasReceivedReadyResponse (this (run trace (newRemix ko))) = true ->
        hasReceivedReadyResponse (this (run later (run trace (newRemix ko)))) = true)
  /\ (forall later v v',
        returned (set v (run trace (newRemix ko))) = true
        \/ returned (finish (run trace (newRemix ko))) = true ->
        returned (set v' (run later (run trace (newRemix ko)))) = true
        /\ returned (finish (run later (run trace (newRemix ko)))) = true).
Proof.
  pose proof (callbacks_reachable ko trace) as Hcbs.
  split; [reflexivity |]. split; [| split; [| split]].
  - intros a. now apply ready_exec.
  - intros d. rewrite (ready_exec _ _ Hcbs). simpl. apply orb_true_r.
  - intros later Hready. now apply ready_run.
  - intros later v v' Hpassed.
    assert (Hready : hasReceivedReadyResponse (this (run trace (newRemix ko))) = true).
    { destruct Hpassed as [Hset | Hfinish].
      - rewrite set_unfold in Hset.
        destruct (hasReceivedReadyResponse (this (run trace (newRemix ko))));
          [reflexivity | discriminate].
      - rewrite finish_unfold in Hfinish.
        destruct (hasReceivedReadyResponse (this (run trace (newRemix ko))));
          [reflexivity | discriminate]. }
    pose proof (ready_run later _ Hcbs Hready) as Hlater.
    rewrite set_unfold, finish_unfold, Hlater. split; reflexivity.
Qed.

(** C6: [get] without path returns the whole tree; with a path it returns
    the stored value when every segment is present and the fallback when no
    value is stored there, at any depth; in every frame, the fresh store
    included, it returns normally and leaves the frame as it was. *)
Theorem get_returns_value_or_fallback (w : Frame) :
  (forall fallback, get None fallback w = (Normal (values (this w)), w))
  /\ (forall path fallback v,
        HasAt (values (this w)) path v ->
        get (Some path) fallback w = (Normal v, w))
  /\ (forall path fallback,
        (forall v, ~ HasAt (values (this w)) path v) ->
        get (Some path) fallback w = (Normal fallback, w))
  /\ (forall path fallback, exists v, get path fallback w = (Normal v, w)).
Proof.
  split; [| split; [| split]].
  - intros fallback. apply get_unfold.
  - intros path fallback v Hat. rewrite get_unfold.
    now rewrite (Utils_get_present _ _ _ fallback Hat).
  - intros path fallback Habsent. rewrite get_unfold.
    now rewrite (Utils_get_absent path _ fallback Habsent).
  - intros path fallback. rewrite get_unfold. eexists. reflexivity.
Qed.

(** C7, as the code has it: after an [init] that succeeded, whatever calls
    and host messages follow, every further [init] throws and leaves the
    frame, and so the tree of the first [init], as it was; the error is the
    double-initialization StateError when the argument is truthy and the
    ConfigurationError of absent defaults when it is falsy, since that test
    comes first. *)
Theorem repeated_init_throws (ko : value) (before : list action) (first : value)
  (between : list action) (again : value) :
  returned (init first (run before (newRemix ko))) = true ->
  init again (run between (snd (init first (run before (newRemix ko))))) =
  (Throw (Error (if truthy again then initializedMoreThanOnce else unableToFindRemixData)),
   run between (snd (init first (run before (newRemix ko)))))
  /\ errorKind (Error (if truthy again then initializedMoreThanOnce
                       else unableToFindRemixData)) =
     Some (if truthy again then StateError else ConfigurationError).
Proof.
  intros Hfirst.
  pose proof (callbacks_reachable ko before) as Hcbs.
  set (w0 := run before (newRemix ko)) in *.
  assert (Hinit : isInitialized (this (snd (init first w0))) = true
                  /\ callbacks (snd (init first w0)) = registeredCallbacks).
  { rewrite init_unfold in Hfirst |- *.
    destruct (negb (truthy first)); [discriminate |].
    destruct (isInitialized (this w0)); [discriminate |].
    split; [reflexivity | exact Hcbs]. }
  destruct Hinit as [Hinit Hcbs1].
  pose proof (initialized_run between _ Hcbs1 Hinit) as Hstill.
  rewrite init_unfold, Hstill.
  destruct (truthy again); split; reflexivity.
Qed.

Lemma repeated_init_throws_witness :
  returned (init sampleDefaults (run [] (newRemix sampleHost))) = true
  /\ init samplePartial
       (run [HostSends readySignal; CallGet None VUndefined]
          (snd (init sampleDefaults (run [] (newRemix sampleHost))))) =
     (Throw (Error initializedMoreThanOnce),
      run [HostSends readySignal; CallGet None VUndefined]
        (snd (init sampleDefaults (run [] (newRemix sampleHost))))).
Proof.
  split; [reflexivity |].
  exact (proj1 (repeated_init_throws sampleHost [] sampleDefaults
                  [HostSends readySignal; CallGet None VUndefined] samplePartial
                  eq_refl)).
Defined.

(** C7 as the spec states it fails: on a store initialized once, [init]
    with an absent argument throws the error of absent defaults, a
    ConfigurationError and not a StateError. *)
Lemma second_init_without_defaults :
  init (VObj []) (newRemix VUndefined) = (Normal tt, onceInitialized)
  /\ isInitialized (this onceInitialized) = true
  /\ init VUndefined onceInitialized = (Throw (Error unableToFindRemixData), onceInitialized)
  /\ errorKind (Error unableToFindRemixData) = Some ConfigurationError
  /\ errorKind (Error unableToFindRemixData) <> Some StateError.
Proof.
  repeat split; try reflexivity. discriminate.
Qed.

Lemma deliver_relay (name key : string) (r x : value) :
  member r key = Normal x ->
  deliver {| event := name; payload := r |}
    (Pending name (fun d => await (Fulfilled d) (fun d' => member d' key))) =
  Fulfilled x.
Proof.
  intros Hx. unfold deliver. cbn [event payload].
  rewrite String.eqb_refl. cbn [await]. now rewrite Hx.
Qed.

(** C8, as the code has it: [encryptValue(v)] posts exactly one
    [KojiPreview.EncryptValue] message with data [{plaintextValue: v}],
    changes nothing else, and waits for [KojiPreview.ValueEncrypted]; for
    every reply payload [r] other than [undefined] and [null] the promise is
    fulfilled with [r.encryptedValue] as read from [r], untouched.
    [decryptValue] does the same through [KojiPreview.DecryptValue], data
    [{encryptedValue}], [KojiPreview.ValueDecrypted] and
    [r.decryptedValue]. *)
Theorem encrypt_and_decrypt_relay_the_reply (v r : value) (w : Frame) :
  r <> VUndefined ->
  r <> VNull ->
  (exists p x,
     encryptValue v w =
     (Normal p,
      withPosted (posted w ++ [{| kojiEventName := "KojiPreview.EncryptValue";
                                  data := Some (VObj [("plaintextValue", v)]) |}]) w)
     /\ member r "encryptedValue" = Normal x
     /\ deliver {| event := "KojiPreview.ValueEncrypted"; payload := r |} p = Fulfilled x)
  /\ (exists p x,
        decryptValue v w =
        (Normal p,
         withPosted (posted w ++ [{| kojiEventName := "KojiPreview.DecryptValue";
                                     data := Some (VObj [("encryptedValue", v)]) |}]) w)
        /\ member r "decryptedValue" = Normal x
        /\ deliver {| event := "KojiPreview.ValueDecrypted"; payload := r |} p = Fulfilled x).
Proof.
  intros Hundefined Hnull.
  assert (Hmember : forall key, exists x, member r key = Normal x).
  { intros key. destruct r; simpl; try (eexists; reflexivity).
    - now destruct Hundefined.
    - now destruct Hnull.
    - destruct (lookupKey key fields); eexists; reflexivity. }
  split.
  - destruct (Hmember "encryptedValue") as [x Hx].
    eexists. exists x. rewrite encryptValue_unfold.
    split; [reflexivity |]. split; [exact Hx |]. now apply deliver_relay.
  - destruct (Hmember "decryptedValue") as [x Hx].
    eexists. exists x. rewrite decryptValue_unfold.
    split; [reflexivity |]. split; [exact Hx |]. now apply deliver_relay.
Qed.

Lemma encrypt_and_decrypt_relay_the_reply_witness :
  VObj [("encryptedValue", VStr "kms:1f0a")] <> VUndefined
  /\ VObj [("encryptedValue", VStr "kms:1f0a")] <> VNull
  /\ exists p x,
       encryptValue (VStr "secret") (newRemix VUndefined) =
       (Normal p,
        withPosted
          (posted (newRemix VUndefined)
           ++ [{| kojiEventName := "KojiPreview.EncryptValue";
                  data := Some (VObj [("plaintextValue", VStr "secret")]) |}])
          (newRemix VUndefined))
       /\ member (VObj [("encryptedValue", VStr "kms:1f0a")]) "encryptedValue" = Normal x
       /\ deliver {| event := "KojiPreview.ValueEncrypted";
                     payload := VObj [("encryptedValue", VStr "kms:1f0a")] |} p =
          Fulfilled x.
Proof.
  split; [discriminate |]. split; [discriminate |].
  exact (proj1 (encrypt_and_decrypt_relay_the_reply (VStr "secret")
                  (VObj [("encryptedValue", VStr "kms:1f0a")]) (newRemix VUndefined)
                  ltac:(discriminate) ltac:(discriminate))).
Defined.

(** C8 as the spec states it fails for a reply without payload: the read of
    [encryptedValue] on [null] throws, and the promise is rejected instead
    of resolved. *)
Lemma encryptValue_rejects_on_null_reply :
  exists p,
    fst (encryptValue (VStr "secret") (newRemix VUndefined)) = Normal p
    /\ deliver {| event := "KojiPreview.ValueEncrypted"; payload := VNull |} p =
       Rejected TypeError
    /\ forall x,
         deliver {| event := "KojiPreview.ValueEncrypted"; payload := VNull |} p <>
         Fulfilled x.
Proof.
  eexists. split; [reflexivity |]. split; [reflexivity |]. intros x. discriminate.
Qed.

(** C9: a throw of [init], [set] or [finish] leaves the frame exactly as it
    was: tree, both flags, and the messages posted.  [init] throws exactly
    when its argument is falsy or the store is initialized, [set] and
    [finish] exactly when the readiness flag is false.  After an [init]
    that failed for absent defaults the store is still uninitialized, and
    an [init] with truthy defaults then succeeds. *)
Theorem throwing_calls_change_nothing (w : Frame) :
  (forall d e w', init d w = (Throw e, w') -> w' = w)
  /\ (forall P e w', set P w = (Throw e, w') -> w' = w)
  /\ (forall e w', finish w = (Throw e, w') -> w' = w)
  /\ (forall d, returned (init d w) = truthy d && negb (isInitialized (this w)))
  /\ (forall P, returned (set P w) = hasReceivedReadyResponse (this w))
  /\ returned (finish w) = hasReceivedReadyResponse (this w)
  /\ (forall absent D,
        truthy absent = false ->
        isInitialized (this w) = false ->
        truthy D = true ->
        init absent w = (Throw (Error unableToFindRemixData), w)
        /\ isInitialized (this (snd (init absent w))) = false
        /\ init D (snd (init absent w)) = (Normal tt, initialized D w)).
Proof.
  split; [| split; [| split; [| split; [| split; [| split]]]]].
  - intros d e w'. rewrite init_unfold.
    destruct (negb (truthy d)); [now intros [= _ <-] |].
    destruct (isInitialized (this w)); [now intros [= _ <-] | discriminate].
  - intros P e w'. rewrite set_unfold.
    destruct (hasReceivedReadyResponse (this w)); [discriminate | now intros [= _ <-]].
  - intros e w'. rewrite finish_unfold.
    destruct (hasReceivedReadyResponse (this w)); [discriminate | now intros [= _ <-]].
  - intros d. rewrite init_unfold.
    destruct (truthy d), (isInitialized (this w)); reflexivity.
  - intros P. rewrite set_unfold.
    destruct (hasReceivedReadyResponse (this w)); reflexivity.
  - rewrite finish_unfold.
    destruct (hasReceivedReadyResponse (this w)); reflexivity.
  - intros absent D Habsent Hinit HD.
    rewrite !init_unfold, Habsent. simpl. rewrite Hinit, HD. simpl.
    repeat split; reflexivity.
Qed.

(** C10: [init(0)], [init('')], [init(false)] and [init(NaN)] throw the
    error of absent defaults, in every frame and without changing it, as
    every falsy argument does; [init] succeeds exactly when its argument is
    truthy and the store is not yet initialized. *)
Theorem init_requires_truthy_defaults (w : Frame) :
  init (VNum 0%float) w = (Throw (Error unableToFindRemixData), w)
  /\ init (VStr "") w = (Throw (Error unableToFindRemixData), w)
  /\ init (VBool false) w = (Throw (Error unableToFindRemixData), w)
  /\ init (VNum nan) w = (Throw (Error unableToFindRemixData), w)
  /\ unableToFindRemixData = "Unable to find remixData"
  /\ errorKind (Error unableToFindRemixData) = Some ConfigurationError
  /\ (forall d, truthy d = false ->
        init d w = (Throw (Error unableToFindRemixData), w))
  /\ (forall d, (exists w', init d w = (Normal tt, w')) <->
                (truthy d = true /\ isInitialized (this w) = false)).
Proof.
  do 6 (split; [reflexivity |]). split.
  - intros d Hd. now rewrite init_unfold, Hd.
  - intros d. rewrite init_unfold. split.
    + intros [w' Hw'].
      destruct (truthy d); [| discriminate].
      destruct (isInitialized (this w)); [discriminate | split; reflexivity].
    + intros [Hd Hinit]. exists (initialized d w). now rewrite Hd, Hinit.
Qed.

(** ** The scenario of section 8 of the spec *)

Example scenario_init_get :
  fst (get (Some ["colors"; "bg"]) VUndefined
         (snd (init sampleDefaults (newRemix VUndefined)))) = Normal (VStr "#fff").
Proof. reflexivity. Qed.

Example scenario_get_fallback :
  fst (get (Some ["colors"; "text"]) (VStr "#000000")
         (snd (init sampleDefaults (newRemix VUndefined)))) = Normal (VStr "#000000")
  /\ forall v, ~ HasAt sampleDefaults ["colors"; "text"] v.
Proof.
  split; [reflexivity |].
  intros v Hat.
  inversion Hat as [| ? ? ? x ? Hcolors Hrest]; subst.
  injection Hcolors as <-.
  inversion Hrest as [| ? ? ? y ? Htext _]; subst.
  discriminate Htext.
Qed.

Example scenario_overrides_replace_sequences :
  values (this (snd (init sampleDefaults (newRemix sampleHost)))) =
  VObj [("colors", VObj [("bg", VStr "#fff")]); ("tags", VArr [VStr "c"])].
Proof. reflexivity. Qed.

Example scenario_set_before_ready :
  set samplePartial (snd (init sampleDefaults (newRemix VUndefined))) =
  (Throw (Error setBeforeReady), snd (init sampleDefaults (newRemix VUndefined))).
Proof. reflexivity. Qed.

Example scenario_set_after_ready :
  let w := run [CallInit sampleDefaults; HostSends readySignal; CallSet samplePartial]
             (newRemix VUndefined) in
  values (this w) =
    VObj [("colors", VObj [("bg", VStr "#fff"); ("text", VStr "#000")]);
          ("tags", VArr [VStr "a"; VStr "b"])]
  /\ posted w = [pushMessage (values (this w))].
Proof. split; reflexivity. Qed.

Example scenario_overwrite_on_fresh_store :
  returned (overwrite samplePartial (newRemix VUndefined)) = true
  /\ posted (snd (overwrite samplePartial (newRemix VUndefined))) =
     [pushMessage samplePartial].
Proof. split; reflexivity. Qed.

(** ** Whole traces *)

Ltac unfold_methods :=
  rewrite ?init_unfold, ?get_unfold, ?set_unfold, ?overwrite_unfold,
    ?finish_unfold, ?sendValues_unfold.

Lemma posted_exec (a : action) (w : Frame) :
  exists more,
    posted (exec a w) = posted w ++ more
    /\ length more <= (if canPost a then 1 else 0).
Proof.
  destruct a; simpl; unfold_methods;
    repeat match goal with
      | |- context [if ?c then _ else _] => destruct c
      end; simpl;
    first [ exists []; split; [now rewrite app_nil_r | simpl; lia]
          | eexists [_]; split; [reflexivity | simpl; lia] ].
Qed.

Lemma callbacks_exec_registered (a : action) (w : Frame) :
  callbacks w = registeredCallbacks -> callbacks (exec a w) = registeredCallbacks.
Proof. intros Hcbs. now rewrite callbacks_exec. Qed.

Lemma initialized_step (a : action) (w : Frame) :
  callbacks w = registeredCallbacks ->
  isInitialized (this (exec a w)) = isInitialized (this w) || isTruthyInit a.
Proof.
  intros Hcbs.
  destruct a; simpl; unfold_methods.
  9: { rewrite Hcbs. simpl.
       destruct (String.eqb (event m) "KojiPreview.IsRemixing"); simpl;
         now rewrite orb_false_r. }
  2-8: by_method_cases; now rewrite ?orb_false_r.
  destruct (truthy remixData), (isInitialized (this w)) eqn:E; simpl;
    rewrite ?E; reflexivity.
Qed.

Lemma ready_trace (trace : list action) (w : Frame) :
  callbacks w = registeredCallbacks ->
  hasReceivedReadyResponse (this (run trace w)) =
  hasReceivedReadyResponse (this w) || existsb isReadySignal trace.
Proof.
  revert w. induction trace as [| a rest IH]; intros w Hcbs; simpl.
  - now rewrite orb_false_r.
  - unfold run in IH. rewrite IH by now apply callbacks_exec_registered.
    rewrite (ready_exec a w Hcbs). now rewrite orb_assoc.
Qed.

Lemma initialized_trace (trace : list action) (w : Frame) :
  callbacks w = registeredCallbacks ->
  isInitialized (this (run trace w)) =
  isInitialized (this w) || existsb isTruthyInit trace.
Proof.
  revert w. induction trace as [| a rest IH]; intros w Hcbs; simpl.
  - now rewrite orb_false_r.
  - unfold run in IH. rewrite IH by now apply callbacks_exec_registered.
    rewrite (initialized_step a w Hcbs). now rewrite orb_assoc.
Qed.

Lemma successfulInits_trace (trace : list action) (w : Frame) :
  callbacks w = registeredCallbacks ->
  successfulInits trace w =
  if isInitialized (this w) then 0
  else if existsb isTruthyInit trace then 1 else 0.
Proof.
  revert w. induction trace as [| a rest IH]; intros w Hcbs; simpl.
  - now destruct (isInitialized (this w)).
  - rewrite IH by now apply callbacks_exec_registered.
    rewrite (initialized_step a w Hcbs).
    destruct a; simpl; rewrite ?orb_false_r;
      try (destruct (isInitialized (this w)); reflexivity).
    unfold returned. rewrite init_unfold.
    destruct (truthy remixData), (isInitialized (this w)); reflexivity.
Qed.

Lemma values_exec (a : action) (w : Frame) :
  callbacks w = registeredCallbacks ->
  isWrite a = false ->
  values (this (exec a w)) = values (this w).
Proof.
  intros Hcbs Hwrite.
  destruct a; try discriminate; simpl; unfold_methods.
  6: { rewrite Hcbs. simpl.
       now destruct (String.eqb (event m) "KojiPreview.IsRemixing"). }
  all: by_method_cases.
Qed.

Lemma lastPush_app (ms : list PostMessage) (m : PostMessage) :
  lastPush (ms ++ [m]) =
  match pushedTree m with
  | Some tree => Some tree
  | None => lastPush ms
  end.
Proof.
  induction ms as [| x rest IH]; simpl.
  - now destruct (pushedTree m).
  - rewrite IH. destruct (pushedTree m); [reflexivity |].
    now destruct (lastPush rest).
Qed.

Lemma lastPush_exec (a : action) (w : Frame) :
  callbacks w = registeredCallbacks ->
  isWrite a = false ->
  lastPush (posted (exec a w)) = lastPush (posted w).
Proof.
  intros Hcbs Hwrite.
  destruct a; try discriminate; simpl; unfold_methods;
    try reflexivity.
  all: by_method_cases; now rewrite lastPush_app.
Qed.

Lemma existsb_named_exec (name : string) (a : action) (w : Frame) :
  hasReceivedReadyResponse (this w) = false ->
  existsb (named name) (posted (exec a w)) =
  existsb (named name) (posted w) || postsBeforeReady name a.
Proof.
  intros Hready.
  destruct a; simpl exec; cbn [postsBeforeReady]; unfold_methods; rewrite ?Hready;
    repeat match goal with
      | |- context [if ?c then _ else _] => destruct c
      end;
    cbn [snd posted withPosted withValues withThis];
    rewrite ?existsb_app; cbn [existsb named kojiEventName];
    now rewrite ?orb_false_r.
Qed.

Lemma deliverAll_fulfilled {T : Type} (ms : list HostMessage) (t : T) :
  deliverAll ms (Fulfilled t) = Fulfilled t.
Proof. induction ms as [| m rest IH]; [reflexivity | exact IH]. Qed.

Lemma deliverAll_rejected {T : Type} (ms : list HostMessage) (e : exn) :
  deliverAll ms (@Rejected T e) = Rejected e.
Proof. induction ms as [| m rest IH]; [reflexivity | exact IH]. Qed.


Lemma existsb_named_trace (name : string) (trace : list action) (w : Frame) :
  callbacks w = registeredCallbacks ->
  hasReceivedReadyResponse (this w) = false ->
  existsb isReadySignal trace = false ->
  existsb (named name) (posted (run trace w)) =
  existsb (named name) (posted w) || existsb (postsBeforeReady name) trace.
Proof.
  revert w. induction trace as [| a rest IH]; intros w Hcbs Hready Hnone; simpl.
  - now rewrite orb_false_r.
  - simpl in Hnone. apply orb_false_iff in Hnone as [Ha Hrest].
    unfold run in IH. rewrite IH.
    + rewrite (existsb_named_exec name a w Hready). now rewrite orb_assoc.
    + now apply callbacks_exec_registered.
    + now rewrite (ready_exec a w Hcbs), Hready, Ha.
    + exact Hrest.
Qed.

Lemma posted_trace (trace : list action) (w : Frame) :
  exists more,
    posted (run trace w) = posted w ++ more
    /\ length more <= length (filter canPost trace).
Proof.
  revert w. induction trace as [| a rest IH]; intros w.
  - exists []. split; [now rewrite app_nil_r | simpl; lia].
  - destruct (posted_exec a w) as [first [Hfirst Hlen]].
    destruct (IH (exec a w)) as [more [Hmore Hlen']].
    exists (first ++ more). split.
    + change (run (a :: rest) w) with (run rest (exec a w)).
      now rewrite Hmore, Hfirst, app_assoc.
    + rewrite length_app. simpl. destruct (canPost a); simpl; lia.
Qed.

Lemma values_trace (trace : list action) (w : Frame) :
  callbacks w = registeredCallbacks ->
  existsb isWrite trace = false ->
  values (this (run trace w)) = values (this w)
  /\ lastPush (posted (run trace w)) = lastPush (posted w).
Proof.
  revert w. induction trace as [| a rest IH]; intros w Hcbs Hnone.
  - split; reflexivity.
  - simpl in Hnone. apply orb_false_iff in Hnone as [Ha Hrest].
    change (run (a :: rest) w) with (run rest (exec a w)).
    destruct (IH (exec a w) (callbacks_exec_registered a w Hcbs) Hrest) as [Hv Hp].
    rewrite Hv, Hp. split.
    + now apply values_exec.
    + now apply lastPush_exec.
Qed.

Lemma deliverAll_waiting {T : Type} (name : string) (resume : value -> Promise T)
  (ms : list HostMessage) :
  (forall d ms', deliverAll ms' (resume d) = resume d) ->
  deliverAll ms (Pending name resume) =
  match firstReply name ms with
  | Some d => resume d
  | None => Pending name resume
  end.
Proof.
  intros Hsettled.
  induction ms as [| m rest IH]; [reflexivity |].
  unfold deliverAll in *. simpl.
  destruct (String.eqb (event m) name).
  - apply Hsettled.
  - exact IH.
Qed.

(** ** Further properties of the store *)

(** X1: messages are only ever appended: after any trace of calls and host
    messages the posted messages are those posted before followed by new
    ones, at most one for each call other than [init] and [get]; host
    messages post nothing. *)
Theorem posted_only_grows (trace : list action) (w : Frame) :
  exists more,
    posted (run trace w) = posted w ++ more
    /\ length more <= length (filter canPost trace)
    /\ length (posted w) <= length (posted (run trace w)).
Proof.
  destruct (posted_trace trace w) as [more [Hmore Hlen]].
  exists more. rewrite Hmore, length_app. repeat split; [exact Hlen | lia].
Qed.

(** X2: on the store the module creates, after any trace the readiness flag
    is up exactly when the trace contains the arrival of
    [KojiPreview.IsRemixing], and [set] and [finish] return normally exactly
    then. *)
Theorem ready_iff_signal_received (ko : value) (trace : list action) (P : value) :
  hasReceivedReadyResponse (this (run trace (newRemix ko))) = existsb isReadySignal trace
  /\ returned (set P (run trace (newRemix ko))) = existsb isReadySignal trace
  /\ returned (finish (run trace (newRemix ko))) = existsb isReadySignal trace.
Proof.
  assert (Hready : hasReceivedReadyResponse (this (run trace (newRemix ko))) =
                   existsb isReadySignal trace).
  { now rewrite ready_trace. }
  split; [exact Hready |].
  rewrite set_unfold, finish_unfold, Hready.
  destruct (existsb isReadySignal trace); split; reflexivity.
Qed.

(** X3: on the store the module creates, after any trace the store is
    initialized exactly when the trace contains a call of [init] with a
    truthy argument, and exactly one call of [init] has returned normally
    then, none otherwise. *)
Theorem init_succeeds_exactly_once (ko : value) (trace : list action) :
  isInitialized (this (run trace (newRemix ko))) = existsb isTruthyInit trace
  /\ successfulInits trace (newRemix ko) =
     (if existsb isTruthyInit trace then 1 else 0).
Proof.
  split.
  - now rewrite initialized_trace.
  - now rewrite successfulInits_trace.
Qed.

(** X4: only [init], [set] and [overwrite] change the tree: a trace without
    these calls, run after any trace on the store the module creates, leaves
    the tree as it was. *)
Theorem tree_changes_only_by_writes (ko : value) (before trace : list action) :
  existsb isWrite trace = false ->
  values (this (run trace (run before (newRemix ko)))) =
  values (this (run before (newRemix ko))).
Proof.
  intros Hnone.
  apply (values_trace trace _ (callbacks_reachable ko before) Hnone).
Qed.

Lemma tree_changes_only_by_writes_witness :
  existsb isWrite
    [CallGet None VUndefined; CallFinish; CallCancel; CallEncryptValue (VStr "secret");
     HostSends readySignal; CallFinish] = false
  /\ values (this (run [CallGet None VUndefined; CallFinish; CallCancel;
                        CallEncryptValue (VStr "secret"); HostSends readySignal;
                        CallFinish]
                     (run [CallInit sampleDefaults] (newRemix sampleHost)))) =
     values (this (run [CallInit sampleDefaults] (newRemix sampleHost))).
Proof.
  split; [reflexivity |].
  exact (tree_changes_only_by_writes sampleHost [CallInit sampleDefaults]
           [CallGet None VUndefined; CallFinish; CallCancel;
            CallEncryptValue (VStr "secret"); HostSends readySignal; CallFinish]
           eq_refl).
Defined.

(** X5: [init] builds the tree from its argument and the host's overrides
    alone.  An [overwrite] made before [init], which no guard forbids, does
    not stop [init] from succeeding and leaves nothing in the tree, although
    its push stays posted; the same holds for a [set] made before [init]
    once the readiness flag is up. *)
Theorem init_discards_earlier_writes (D T : value) (w : Frame) :
  truthy D = true ->
  isInitialized (this w) = false ->
  (returned (init D (snd (overwrite T w))) = true
   /\ values (this (snd (init D (snd (overwrite T w))))) =
      values (this (snd (init D w)))
   /\ posted (snd (init D (snd (overwrite T w)))) = posted w ++ [pushMessage T])
  /\ (hasReceivedReadyResponse (this w) = true ->
      returned (init D (snd (set T w))) = true
      /\ values (this (snd (init D (snd (set T w))))) =
         values (this (snd (init D w)))
      /\ posted (snd (init D (snd (set T w)))) =
         posted w ++ [pushMessage (deepmerge arrayMerge (values (this w)) T)]).
Proof.
  intros HD Hinit. split.
  - unfold returned. rewrite overwrite_unfold, sendValues_unfold.
    rewrite !init_unfold, HD. simpl. rewrite Hinit. repeat split; reflexivity.
  - intros Hready. unfold returned.
    rewrite set_unfold, Hready, sendValues_unfold.
    rewrite !init_unfold, HD. simpl. rewrite Hinit. repeat split; reflexivity.
Qed.

Lemma init_discards_earlier_writes_witness :
  truthy sampleDefaults = true
  /\ isInitialized (this (newRemix sampleHost)) = false
  /\ returned (init sampleDefaults (snd (overwrite samplePartial (newRemix sampleHost)))) = true
  /\ values (this (snd (init sampleDefaults
                          (snd (overwrite samplePartial (newRemix sampleHost)))))) =
     values (this (snd (init sampleDefaults (newRemix sampleHost))))
  /\ posted (snd (init sampleDefaults
                    (snd (overwrite samplePartial (newRemix sampleHost))))) =
     posted (newRemix sampleHost) ++ [pushMessage samplePartial].
Proof.
  split; [reflexivity |]. split; [reflexivity |].
  exact (proj1 (init_discards_earlier_writes sampleDefaults samplePartial
                  (newRemix sampleHost) eq_refl eq_refl)).
Defined.

(** X6: after an [overwrite], or a [set] made with the readiness flag up,
    the latest push among the posted messages carries exactly the tree of
    the store, and this stays so through any later calls of [get],
    [finish], [cancel], [encryptValue], [decryptValue] and any host
    messages. *)
Theorem last_push_is_the_tree (ko : value) (before : list action) (a : action)
  (rest : list action) :
  pushes a (run before (newRemix ko)) = true ->
  existsb isWrite rest = false ->
  lastPush (posted (run rest (exec a (run before (newRemix ko))))) =
  Some (values (this (run rest (exec a (run before (newRemix ko)))))).
Proof.
  intros Hpush Hnone.
  pose proof (callbacks_reachable ko before) as Hcbs.
  set (w := run before (newRemix ko)) in *.
  destruct (values_trace rest (exec a w) (callbacks_exec_registered a w Hcbs) Hnone)
    as [Hv Hp].
  rewrite Hv, Hp.
  destruct a; try discriminate; cbn [pushes] in Hpush; cbn [exec].
  - rewrite set_unfold, Hpush, sendValues_unfold. simpl. now rewrite lastPush_app.
  - rewrite overwrite_unfold, sendValues_unfold. simpl. now rewrite lastPush_app.
Qed.

Lemma last_push_is_the_tree_witness :
  pushes (CallSet samplePartial)
    (run [CallInit sampleDefaults; HostSends readySignal] (newRemix sampleHost)) = true
  /\ existsb isWrite [CallEncryptValue (VStr "secret"); CallGet None VUndefined; CallFinish]
     = false
  /\ lastPush
       (posted (run [CallEncryptValue (VStr "secret"); CallGet None VUndefined; CallFinish]
                  (exec (CallSet samplePartial)
                     (run [CallInit sampleDefaults; HostSends readySignal]
                        (newRemix sampleHost))))) =
     Some (values
             (this (run [CallEncryptValue (VStr "secret"); CallGet None VUndefined;
                         CallFinish]
                      (exec (CallSet samplePartial)
                         (run [CallInit sampleDefaults; HostSends readySignal]
                            (newRemix sampleHost)))))).
Proof.
  split; [reflexivity |]. split; [reflexivity |].
  exact (last_push_is_the_tree sampleHost
           [CallInit sampleDefaults; HostSends readySignal] (CallSet samplePartial)
           [CallEncryptValue (VStr "secret"); CallGet None VUndefined; CallFinish]
           eq_refl eq_refl).
Defined.

(** X7: as long as no [KojiPreview.IsRemixing] has arrived, the store the
    module creates never posts [KojiPreview.Finish], whatever is called, and
    it has posted a [KojiPreview.SetValue] exactly when [overwrite] was
    called: [set] and [finish] are gated, [overwrite] is not. *)
Theorem nothing_gated_is_posted_before_the_signal (ko : value) (trace : list action) :
  existsb isReadySignal trace = false ->
  existsb (named "KojiPreview.Finish") (posted (run trace (newRemix ko))) = false
  /\ existsb (named "KojiPreview.SetValue") (posted (run trace (newRemix ko))) =
     existsb isOverwrite trace.
Proof.
  intros Hnone.
  assert (Hfresh : callbacks (newRemix ko) = registeredCallbacks) by reflexivity.
  split.
  - rewrite (existsb_named_trace _ trace _ Hfresh eq_refl Hnone). simpl.
    clear. induction trace as [| a rest IH]; [reflexivity |].
    simpl. rewrite IH. now destruct a.
  - rewrite (existsb_named_trace _ trace _ Hfresh eq_refl Hnone). simpl.
    clear. induction trace as [| a rest IH]; [reflexivity |].
    simpl. rewrite IH. now destruct a.
Qed.

Lemma nothing_gated_is_posted_before_the_signal_witness :
  existsb isReadySignal
    [CallInit sampleDefaults; CallSet samplePartial; CallFinish; CallCancel] = false
  /\ existsb (named "KojiPreview.Finish")
       (posted (run [CallInit sampleDefaults; CallSet samplePartial; CallFinish; CallCancel]
                  (newRemix sampleHost))) = false
  /\ existsb (named "KojiPreview.SetValue")
       (posted (run [CallInit sampleDefaults; CallSet samplePartial; CallFinish; CallCancel]
                  (newRemix sampleHost))) =
     existsb isOverwrite
       [CallInit sampleDefaults; CallSet samplePartial; CallFinish; CallCancel].
Proof.
  split; [reflexivity |].
  exact (nothing_gated_is_posted_before_the_signal sampleHost
           [CallInit sampleDefaults; CallSet samplePartial; CallFinish; CallCancel]
           eq_refl).
Defined.

(** X8: the promise of a push is settled by the first
    [KojiPreview.DidChangeVcc] message among those that arrive, with the
    truthiness of its payload; messages before it and after it change
    nothing, and the promise is never rejected. *)
Theorem push_promise_settles_once (w : Frame) (ms : list HostMessage) :
  exists p,
    fst (sendValues w) = Normal p
    /\ deliverAll ms p =
       match firstReply "KojiPreview.DidChangeVcc" ms with
       | Some d => Fulfilled (truthy d)
       | None => p
       end
    /\ forall e, deliverAll ms p <> Rejected e.
Proof.
  exists (Pending "KojiPreview.DidChangeVcc" (fun d => Fulfilled (truthy d))).
  split; [reflexivity |].
  assert (Hall : deliverAll ms
                   (Pending "KojiPreview.DidChangeVcc" (fun d => Fulfilled (truthy d))) =
                 match firstReply "KojiPreview.DidChangeVcc" ms with
                 | Some d => Fulfilled (truthy d)
                 | None => Pending "KojiPreview.DidChangeVcc" (fun d => Fulfilled (truthy d))
                 end).
  { apply deliverAll_waiting. intros d ms'. apply deliverAll_fulfilled. }
  split; [exact Hall |].
  intros e. rewrite Hall.
  destruct (firstReply "KojiPreview.DidChangeVcc" ms); discriminate.
Qed.

(** X9: the promise of [encryptValue] is settled by the first
    [KojiPreview.ValueEncrypted] message among those that arrive: fulfilled
    with its [encryptedValue], or rejected when its payload is [undefined]
    or [null]; later messages change nothing.  [decryptValue] does the same
    with [KojiPreview.ValueDecrypted] and [decryptedValue]. *)
Theorem relay_promise_settles_on_first_reply (v : value) (w : Frame)
  (ms : list HostMessage) :
  (exists p,
     fst (encryptValue v w) = Normal p
     /\ deliverAll ms p =
        match firstReply "KojiPreview.ValueEncrypted" ms with
        | Some d =>
            match member d "encryptedValue" with
            | Normal x => Fulfilled x
            | Throw e => Rejected e
            end
        | None => p
        end)
  /\ (exists p,
        fst (decryptValue v w) = Normal p
        /\ deliverAll ms p =
           match firstReply "KojiPreview.ValueDecrypted" ms with
           | Some d =>
               match member d "decryptedValue" with
               | Normal x => Fulfilled x
               | Throw e => Rejected e
               end
           | None => p
           end).
Proof.
  split.
  - eexists. rewrite encryptValue_unfold. split; [reflexivity |].
    rewrite deliverAll_waiting; [reflexivity |].
    intros d ms'. simpl. destruct (member d "encryptedValue").
    + apply deliverAll_fulfilled.
    + apply deliverAll_rejected.
  - eexists. rewrite decryptValue_unfold. split; [reflexivity |].
    rewrite deliverAll_waiting; [reflexivity |].
    intros d ms'. simpl. destruct (member d "decryptedValue").
    + apply deliverAll_fulfilled.
    + apply deliverAll_rejected.
Qed.

(** X10: [cancel] has no guard and is no latch: in every frame, [n] calls
    in a row all return normally, post [n] [KojiPreview.Cancel] messages
    without data and leave the fields of the store as they were. *)
Theorem cancel_only_sends (n : nat) (w : Frame) :
  returned (cancel w) = true
  /\ this (run (repeat CallCancel n) w) = this w
  /\ posted (run (repeat CallCancel n) w) =
     posted w ++ repeat {| kojiEventName := "KojiPreview.Cancel"; data := None |} n.
Proof.
  split; [reflexivity |].
  revert w. induction n as [| n IH]; intros w.
  - split; [reflexivity | simpl; now rewrite app_nil_r].
  - change (run (repeat CallCancel (S n)) w)
      with (run (repeat CallCancel n) (exec CallCancel w)).
    destruct (IH (exec CallCancel w)) as [Hthis Hposted].
    rewrite Hthis, Hposted. split; [reflexivity |].
    simpl. now rewrite <- app_assoc.
Qed.

(** X11: [finish] is gated but is no latch: once the readiness flag is up,
    [n] calls in a row post [n] [KojiPreview.Finish] messages without data
    and leave the fields of the store as they were, so [set] and [finish]
    still pass afterwards. *)
Theorem finish_only_sends (n : nat) (w : Frame) (P : value) :
  hasReceivedReadyResponse (this w) = true ->
  this (run (repeat CallFinish n) w) = this w
  /\ posted (run (repeat CallFinish n) w) =
     posted w ++ repeat {| kojiEventName := "KojiPreview.Finish"; data := None |} n
  /\ returned (finish (run (repeat CallFinish n) w)) = true
  /\ returned (set P (run (repeat CallFinish n) w)) = true.
Proof.
  intros Hready.
  assert (Hrun : this (run (repeat CallFinish n) w) = this w
                 /\ posted (run (repeat CallFinish n) w) =
                    posted w
                    ++ repeat {| kojiEventName := "KojiPreview.Finish"; data := None |} n).
  { revert w Hready. induction n as [| n IH]; intros w Hready.
    - split; [reflexivity | simpl; now rewrite app_nil_r].
    - change (run (repeat CallFinish (S n)) w)
        with (run (repeat CallFinish n) (exec CallFinish w)).
      assert (Hstep : exec CallFinish w =
                      withPosted
                        (posted w
                         ++ [{| kojiEventName := "KojiPreview.Finish"; data := None |}]) w).
      { cbn [exec]. now rewrite finish_unfold, Hready. }
      rewrite Hstep.
      destruct (IH (withPosted
                      (posted w
                       ++ [{| kojiEventName := "KojiPreview.Finish"; data := None |}]) w)
                  Hready) as [Hthis Hposted].
      rewrite Hthis, Hposted. split; [reflexivity |].
      simpl. now rewrite <- app_assoc. }
  destruct Hrun as [Hthis Hposted].
  split; [exact Hthis |]. split; [exact Hposted |].
  unfold returned. rewrite finish_unfold, set_unfold, Hthis, Hready.
  split; reflexivity.
Qed.

Lemma finish_only_sends_witness :
  hasReceivedReadyResponse (this (run [HostSends readySignal] (newRemix sampleHost))) = true
  /\ this (run (repeat CallFinish 3) (run [HostSends readySignal] (newRemix sampleHost))) =
     this (run [HostSends readySignal] (newRemix sampleHost))
  /\ posted (run (repeat CallFinish 3) (run [HostSends readySignal] (newRemix sampleHost))) =
     posted (run [HostSends readySignal] (newRemix sampleHost))
     ++ repeat {| kojiEventName := "KojiPreview.Finish"; data := None |} 3.
Proof.
  split; [reflexivity |].
  pose proof (finish_only_sends 3 (run [HostSends readySignal] (newRemix sampleHost))
                samplePartial eq_refl) as [Hthis [Hposted _]].
  split; [exact Hthis | exact Hposted].
Defined.

Lemma readOverrides_falsy (ko : value) :
  truthy ko = false -> readOverrides ko = VObj [].
Proof. destruct ko; try reflexivity; discriminate. Qed.

(** X12: on the store the module creates, [init] with a tree of defaults
    stores that tree unchanged whenever the host gives nothing to merge:
    [window.KOJI_OVERRIDES] is falsy, or has no [overrides] or a falsy one,
    or its [overrides] has no [remixData] or a falsy one (such as [null],
    [0] or the empty string). *)
Theorem falsy_overrides_keep_the_defaults (dfields : list (string * value)) :
  (forall ko, truthy ko = false ->
     values (this (snd (init (VObj dfields) (newRemix ko)))) = VObj dfields)
  /\ (forall kfields, lookupKey "overrides" kfields = None ->
        values (this (snd (init (VObj dfields) (newRemix (VObj kfields))))) = VObj dfields)
  /\ (forall kfields o, lookupKey "overrides" kfields = Some o -> truthy o = false ->
        values (this (snd (init (VObj dfields) (newRemix (VObj kfields))))) = VObj dfields)
  /\ (forall kfields ofields,
        lookupKey "overrides" kfields = Some (VObj ofields) ->
        lookupKey "remixData" ofields = None ->
        values (this (snd (init (VObj dfields) (newRemix (VObj kfields))))) = VObj dfields)
  /\ (forall kfields ofields rd,
        lookupKey "overrides" kfields = Some (VObj ofields) ->
        lookupKey "remixData" ofields = Some rd ->
        truthy rd = false ->
        values (this (snd (init (VObj dfields) (newRemix (VObj kfields))))) = VObj dfields).
Proof.
  assert (Hempty : forall ko, readOverrides ko = VObj [] ->
            values (this (snd (init (VObj dfields) (newRemix ko)))) = VObj dfields).
  { intros ko Hko. rewrite init_unfold. simpl. now rewrite Hko. }
  split; [| split; [| split; [| split]]].
  - intros ko Hko. apply Hempty. now apply readOverrides_falsy.
  - intros kfields Hnone. apply Hempty. simpl. now rewrite Hnone.
  - intros kfields o Ho Hfalsy. apply Hempty. simpl. rewrite Ho.
    destruct o; try reflexivity; discriminate.
  - intros kfields ofields Ho Hnone. apply Hempty. simpl. now rewrite Ho, Hnone.
  - intros kfields ofields rd Ho Hrd Hfalsy. apply Hempty. simpl.
    now rewrite Ho, Hrd, Hfalsy.
Qed.

Example falsy_overrides_null_remixData :
  values (this (snd (init sampleDefaults
                       (newRemix (VObj [("overrides", VObj [("remixData", VNull)])]))))) =
  sampleDefaults.
Proof. reflexivity. Qed.
